(** * Object storage command group of vultr-cli

    A shallow embedding of [cmd/objectstorage/objectstorage.go]: the nine
    cobra subcommands built by [NewCmdObjectStorage], the [options] methods
    that call the remote API client, and the part of cobra's dispatcher that
    decides in which order the hooks of the file are run.

    Go's [int] is taken at its 64-bit size and written as [Z]; the file does
    no arithmetic on it.  A Go [error] is its message ([None] is [nil]). *)

From Stdlib Require Import String Ascii List ZArith Lia Bool.
Import ListNotations.

Local Open Scope string_scope.
Local Open Scope list_scope.
Local Open Scope Z_scope.

Infix "^^" := String.append (at level 60, right associativity).

(** A Go [error] value: [nil] or an error carrying its [Error()] text. *)
Definition error := option string.

(** [errors.New(msg)]. *)
Definition errors_New (msg : string) : error := Some msg.

(** [fmt.Errorf(prefix + "%v", err)] for a non-nil [err] of text [e]: the
    result is a plain error whose text is the prefix followed by [e]. *)
Definition fmt_Errorf (prefix : string) (e : string) : error :=
Some (prefix ^^ e).

(** ** strconv.Atoi *)

Module strconv.

Inductive NumErr := ErrSyntax | ErrRange.

Record NumError := { Func : string; Num : string; Err : NumErr }.

Definition digit (c : ascii) : option Z :=
let n := Z.of_N (N_of_ascii c) in
if (48 <=? n) && (n <=? 57) then Some (n - 48) else None.

Definition maxUint64 : Z := 2 ^ 64 - 1.

(** The scanning loop of [ParseUint(s, 10, 64)]: a byte that is no decimal
    digit is a syntax error, an overflow stops the scan with a range error. *)
Fixpoint scan (s : string) (n : Z) : Z + NumErr :=
match s with
| EmptyString => inl n
| String c rest =>
    match digit c with
    | None => inr ErrSyntax
    | Some d =>
        if maxUint64 / 10 + 1 <=? n then inr ErrRange
        else if maxUint64 <? n * 10 + d then inr ErrRange
        else scan rest (n * 10 + d)
    end
end.

Definition ParseUint (s : string) : Z + NumErr :=
match s with
| EmptyString => inr ErrSyntax
| _ => scan s 0
end.

(** [ParseInt(s, 10, 64)]: an optional sign, then [ParseUint], then the
    check against the signed 64-bit range. *)
Definition ParseInt (s : string) : Z + NumErr :=
match s with
| EmptyString => inr ErrSyntax
| String c rest =>
    let neg := Ascii.eqb c "-" in
    let body := if Ascii.eqb c "+" || neg then rest else s in
    match ParseUint body with
    | inr ErrSyntax => inr ErrSyntax
    | inr ErrRange => inr ErrRange
    | inl un =>
        let cutoff := 2 ^ 63 in
        if negb neg && (cutoff <=? un) then inr ErrRange
        else if neg && (cutoff <? un) then inr ErrRange
        else inl (if neg then - un else un)
    end
end.

(** [Atoi(s)] is [ParseInt(s, 10, 0)] with the function name of the error
    replaced (its fast path for short inputs computes the same result). *)
Definition Atoi (s : string) : Z + NumError :=
match ParseInt s with
| inl n => inl n
| inr k => inr {| Func := "Atoi"; Num := s; Err := k |}
end.

(** The part of the text [ParseInt] hands to [ParseUint]: the text without
    its leading sign. *)
Definition unsignedPart (s : string) : string :=
match s with
| EmptyString => EmptyString
| String c rest => if Ascii.eqb c "+" || Ascii.eqb c "-" then rest else s
end.

Fixpoint allDigits (s : string) : bool :=
match s with
| EmptyString => true
| String c rest =>
    match digit c with
    | Some _ => allDigits rest
    | None => false
    end
end.

Definition NumErr_text (k : NumErr) : string :=
match k with
| ErrSyntax => "invalid syntax"
| ErrRange => "value out of range"
end.

(** The [Error()] text of a [NumError], given [strconv.Quote]. *)
Definition Error (Quote : string -> string) (e : NumError) : string :=
"strconv." ^^ Func e ^^ ": parsing " ^^ Quote (Num e) ^^ ": " ^^ NumErr_text (Err e).

End strconv.

Arguments strconv.Atoi : simpl never.

(** ** What the file takes from outside

    Constants and texts that are declared in other packages: [utils] of this
    repository, cobra, pflag and strconv.  Nothing below depends on their
    values, so they are kept as one record of parameters. *)
Record Externals := {
  (** [utils.APIKeyError] *)
  APIKeyError : string;
  (** [utils.PerPageDefault] *)
  PerPageDefault : Z;
  (** [strconv.Quote] *)
  Quote : string -> string;
  (** pflag's conversion of the text given to an int flag *)
  intFlagSet : string -> option Z;
  (** pflag: a flag on the command line that the command does not define *)
  unknownFlag : string -> string;
  (** pflag: the text given to flag [name] is no value of its type *)
  invalidArgument : string -> string -> string;
  (** pflag: [GetInt]/[GetString] of a flag that is not defined *)
  flagNotDefined : string -> string;
  (** pflag: [GetInt]/[GetString] of a flag of another type *)
  flagWrongType : string -> string -> string;
  (** cobra: the required flags that were not set *)
  requiredFlagsNotSet : list string -> string
}.

(** ** pflag flag sets *)

Inductive FlagValue :=
| StringValue (s : string)
| IntValue (i : Z).

Record Flag := {
  Name : string;
  Shorthand : string;
  Value : FlagValue;
  Changed : bool;
  Required : bool
}.

Definition FlagSet := list Flag.

Definition typeName (v : FlagValue) : string :=
match v with
| StringValue _ => "string"
| IntValue _ => "int"
end.

Fixpoint Lookup (fs : FlagSet) (name : string) : option Flag :=
match fs with
| [] => None
| f :: rest => if String.eqb (Name f) name then Some f else Lookup rest name
end.

(** [Flags().StringP(name, shorthand, value, usage)]; the usage text is not
    kept. *)
Definition StringP (name shorthand value : string) (fs : FlagSet) : FlagSet :=
fs ++ [{| Name := name; Shorthand := shorthand; Value := StringValue value;
          Changed := false; Required := false |}].

(** [Flags().IntP(name, shorthand, value, usage)]. *)
Definition IntP (name shorthand : string) (value : Z) (fs : FlagSet) : FlagSet :=
fs ++ [{| Name := name; Shorthand := shorthand; Value := IntValue value;
          Changed := false; Required := false |}].

Fixpoint markRequired (name : string) (fs : FlagSet) : FlagSet :=
match fs with
| [] => []
| f :: rest =>
    if String.eqb (Name f) name
    then {| Name := Name f; Shorthand := Shorthand f; Value := Value f;
            Changed := Changed f; Required := true |} :: rest
    else f :: markRequired name rest
end.

(** [MarkFlagRequired(name)]: an error when the flag does not exist. *)
Definition MarkFlagRequired (name : string) (fs : FlagSet) : FlagSet + string :=
match Lookup fs name with
| None => inr ("no such flag -" ^^ name)
| Some _ => inl (markRequired name fs)
end.

Fixpoint setValue (name : string) (v : FlagValue) (fs : FlagSet) : FlagSet :=
match fs with
| [] => []
| f :: rest =>
    if String.eqb (Name f) name
    then {| Name := Name f; Shorthand := Shorthand f; Value := v;
            Changed := true; Required := Required f |} :: rest
    else f :: setValue name v rest
end.

(** The last text the command line gives to flag [name], if any. *)
Fixpoint given (name : string) (fa : list (string * string)) : option string :=
match fa with
| [] => None
| (n, t) :: rest =>
    match given name rest with
    | Some x => Some x
    | None => if String.eqb n name then Some t else None
    end
end.

Section Pflag.

Variable ext : Externals.

(** One flag of the command line, [--name text]: the flag must be defined,
    the text is converted to the type of the flag, and the flag is marked as
    changed. *)
Definition Set_ (fs : FlagSet) (name text : string) : FlagSet + string :=
match Lookup fs name with
| None => inr (unknownFlag ext name)
| Some f =>
    match Value f with
    | StringValue _ => inl (setValue name (StringValue text) fs)
    | IntValue _ =>
        match intFlagSet ext text with
        | Some i => inl (setValue name (IntValue i) fs)
        | None => inr (invalidArgument ext name text)
        end
    end
end.

(** [ParseFlags]: the flags of the command line from left to right; the
    first one that fails ends the parse. *)
Fixpoint ParseFlags (fs : FlagSet) (given : list (string * string)) : FlagSet + string :=
match given with
| [] => inl fs
| (name, text) :: rest =>
    match Set_ fs name text with
    | inl fs' => ParseFlags fs' rest
    | inr e => inr e
    end
end.

Definition GetInt (fs : FlagSet) (name : string) : Z * error :=
match Lookup fs name with
| None => (0, Some (flagNotDefined ext name))
| Some f =>
    match Value f with
    | IntValue i => (i, None)
    | v => (0, Some (flagWrongType ext "int" (typeName v)))
    end
end.

Definition GetString (fs : FlagSet) (name : string) : string * error :=
match Lookup fs name with
| None => ("", Some (flagNotDefined ext name))
| Some f =>
    match Value f with
    | StringValue s => (s, None)
    | v => ("", Some (flagWrongType ext "string" (typeName v)))
    end
end.

(** cobra's [ValidateRequiredFlags]: the names of the required flags that
    the command line did not set. *)
Definition missingRequired (fs : FlagSet) : list string :=
map Name (filter (fun f => Required f && negb (Changed f)) fs).

Definition ValidateRequiredFlags (fs : FlagSet) : error :=
match missingRequired fs with
| [] => None
| names => Some (requiredFlagsNotSet ext names)
end.

End Pflag.

(** ** Values exchanged with the remote API client *)

Module govultr.

Record ListOptions := { PerPage : Z; Cursor : string }.

Record ObjectStorageReq := { ClusterID : Z; TierID : Z; Label : string }.

End govultr.

(** The part of [cli.Base] the file reads and writes.  [Options] is a
    pointer, [None] is [nil]; the client, the context and the printer are
    the effects of the monad below. *)
Module cli.

Record Base := {
  HasAuth : bool;
  Args : list string;
  Options : option govultr.ListOptions
}.

End cli.

(** [type options struct]. *)
Record options := {
  Base : cli.Base;
  ClusterID : Z;
  TierID : Z;
  Label : string
}.


(** One outbound call on [o.Base.Client.ObjectStorage], with its arguments
    (the context apart). *)
Inductive Call :=
| CallList (opts : option govultr.ListOptions)
| CallGet (id : string)
| CallCreate (req : govultr.ObjectStorageReq)
| CallUpdate (id : string) (req : govultr.ObjectStorageReq)
| CallDelete (id : string)
| CallListCluster (opts : option govultr.ListOptions)
| CallListTiers
| CallListClusterTiers (clusterID : Z)
| CallRegenerateKeys (id : string).


(** The command line of one invocation once pflag has split it: the flags
    given, in order, by the name they are defined under and with the text
    given to them, and the positional arguments.  Flags are those of the
    subcommand's own flag set. *)
Record CommandLine := {
  flagArgs : list (string * string);
  posArgs : list string
}.

Inductive Subcommand :=
| cmd_list | cmd_get | cmd_create | cmd_label | cmd_del | cmd_regenerateKeys
| cmd_listClusters | cmd_listClusterTiers | cmd_listTiers.

(** The subcommand whose method makes call [c]. *)
Definition operationOf (c : Call) : Subcommand :=
match c with
| CallList _ => cmd_list
| CallGet _ => cmd_get
| CallCreate _ => cmd_create
| CallUpdate _ _ => cmd_label
| CallDelete _ => cmd_del
| CallListCluster _ => cmd_listClusters
| CallListTiers => cmd_listTiers
| CallListClusterTiers _ => cmd_listClusterTiers
| CallRegenerateKeys _ => cmd_regenerateKeys
end.

(** How a Go function call ends. *)
Inductive outcome (A : Type) :=
| Returned (a : A)
| Panicked
| Exited (code : Z).

Arguments Returned {A} a.
Arguments Panicked {A}.
Arguments Exited {A} code.

Section ObjectStorage.

(** The result types of the client, opaque to this package: values of
    [*govultr.ObjectStorage], [*govultr.Meta], [govultr.ObjectStorageCluster],
    [govultr.ObjectStorageTier] and [*govultr.S3Keys]. *)
Context {ObjectStorage Meta ObjectStorageCluster ObjectStorageTier S3Keys : Type}.

(** What the remote side answers to each call; the [*http.Response] every
    method also returns is dropped by the callers. *)
Record Client := {
  List : option govultr.ListOptions -> list ObjectStorage * Meta * error;
  Get : string -> ObjectStorage * error;
  Create : govultr.ObjectStorageReq -> ObjectStorage * error;
  Update : string -> govultr.ObjectStorageReq -> error;
  Delete : string -> error;
  ListCluster : option govultr.ListOptions -> list ObjectStorageCluster * Meta * error;
  ListTiers : list ObjectStorageTier * error;
  ListClusterTiers : Z -> list ObjectStorageTier * error;
  RegenerateKeys : string -> S3Keys * error
}.

(** What is handed to [o.Base.Printer.Display]. *)
Inductive Data :=
| ObjectStoragesPrinter (ObjectStorages : list ObjectStorage) (meta : Meta)
| ObjectStoragePrinter (os : ObjectStorage)
| ObjectStorageKeysPrinter (Keys : S3Keys)
| ObjectStorageClustersPrinter (Clusters : list ObjectStorageCluster) (meta : Meta)
| ObjectStorageClusterTiersPrinter (ClusterTiers : list ObjectStorageTier)
| ObjectStorageTiersPrinter (Tiers : list ObjectStorageTier)
| Info (msg : string).

Inductive Event :=
| Remote (c : Call)
| Display (d : Data)
| PrintError (e : string).

(** Code that reads and writes the one [options] value [o] shared by all the
    closures and leaves a trace of calls and printer events. *)
Definition M (A : Type) : Type := options -> outcome A * options * list Event.

Definition ret {A} (a : A) : M A := fun o => (Returned a, o, []).

Definition bind {A B} (m : M A) (f : A -> M B) : M B :=
fun o =>
  match m o with
  | (Returned a, o1, t1) => let '(r, o2, t2) := f a o1 in (r, o2, t1 ++ t2)
  | (Panicked, o1, t1) => (Panicked, o1, t1)
  | (Exited c, o1, t1) => (Exited c, o1, t1)
  end.

Notation "x <- c1 ;; c2" := (bind c1 (fun x => c2))
  (at level 61, c1 at next level, right associativity).
Notation "' pat <- c1 ;; c2" := (bind c1 (fun x => match x with pat => c2 end))
  (at level 61, pat pattern, c1 at next level, right associativity).
Notation "c1 ;; c2" := (bind c1 (fun _ => c2))
  (at level 61, right associativity).

Definition getO : M options := fun o => (Returned o, o, []).

Definition modify (f : options -> options) : M unit := fun o => (Returned tt, f o, []).

Definition emit (e : Event) : M unit := fun o => (Returned tt, o, [e]).

Definition panic {A} : M A := fun o => (Panicked, o, []).

Definition os_Exit {A} (code : Z) : M A := fun o => (Exited code, o, []).

(** [s[0]]: an index out of range panics. *)
Definition index0 (s : list string) : M string :=
match s with
| a :: _ => ret a
| [] => panic
end.

Definition setBase (f : cli.Base -> cli.Base) (o : options) : options :=
{| Base := f (Base o); ClusterID := ClusterID o; TierID := TierID o; Label := Label o |}.

Definition setBaseOptions (opts : govultr.ListOptions) (b : cli.Base) : cli.Base :=
{| cli.HasAuth := cli.HasAuth b; cli.Args := cli.Args b; cli.Options := Some opts |}.

Variable ext : Externals.
Variable client : Client.

(** Modelled from the spec: [utils.SetOptions] is declared outside this file.
    The subcommands act on the positional ID of the invocation, which the
    methods read from [o.Base.Args]; the helper is taken to store the
    positional arguments there and to leave the authentication state alone. *)
Definition SetOptions (args : list string) (b : cli.Base) : cli.Base :=
{| cli.HasAuth := cli.HasAuth b; cli.Args := args; cli.Options := cli.Options b |}.

(** Modelled from the spec: [utils.GetPaging] is declared outside this file.
    The spec has the cursor and the page size forwarded to the remote side
    (the flags [cursor] and [per-page]); it returns no error, so a flag
    that cannot be read leaves the zero value. *)
Definition GetPaging (cmd : FlagSet) : govultr.ListOptions :=
{| govultr.PerPage := fst (GetInt ext cmd "per-page");
   govultr.Cursor := fst (GetString ext cmd "cursor") |}.

(** *** The methods of [options] *)

Definition options_list : M (list ObjectStorage * Meta * error) :=
o <- getO ;;
emit (Remote (CallList (cli.Options (Base o)))) ;;
ret (List client (cli.Options (Base o))).

Definition options_get : M (ObjectStorage * error) :=
o <- getO ;;
id <- index0 (cli.Args (Base o)) ;;
emit (Remote (CallGet id)) ;;
ret (Get client id).

Definition options_create : M (ObjectStorage * error) :=
o <- getO ;;
let OSreq := {| govultr.ClusterID := ClusterID o;
                govultr.TierID := TierID o;
                govultr.Label := Label o |} in
emit (Remote (CallCreate OSreq)) ;;
ret (Create client OSreq).

Definition options_update : M error :=
o <- getO ;;
let OSreq := {| govultr.ClusterID := 0;
                govultr.TierID := 0;
                govultr.Label := Label o |} in
id <- index0 (cli.Args (Base o)) ;;
emit (Remote (CallUpdate id OSreq)) ;;
ret (Update client id OSreq).

Definition options_del : M error :=
o <- getO ;;
id <- index0 (cli.Args (Base o)) ;;
emit (Remote (CallDelete id)) ;;
ret (Delete client id).

Definition options_listClusters : M (list ObjectStorageCluster * Meta * error) :=
o <- getO ;;
emit (Remote (CallListCluster (cli.Options (Base o)))) ;;
ret (ListCluster client (cli.Options (Base o))).

Definition options_listTiers : M (list ObjectStorageTier * error) :=
emit (Remote CallListTiers) ;;
ret (ListTiers client).

Definition options_listClusterTiers (clusterID : Z) : M (list ObjectStorageTier * error) :=
emit (Remote (CallListClusterTiers clusterID)) ;;
ret (ListClusterTiers client clusterID).

Definition options_regenerateKeys : M (S3Keys * error) :=
o <- getO ;;
id <- index0 (cli.Args (Base o)) ;;
emit (Remote (CallRegenerateKeys id)) ;;
ret (RegenerateKeys client id).

(** *** The commands *)

(** A [cobra.Command], as far as this file fills it in. *)
Record Command := {
  Args : option (list string -> error);
  RunE : FlagSet -> list string -> M error;
  Flags : FlagSet
}.

(** The [PersistentPreRunE] of the [object-storage] command. *)
Definition PersistentPreRunE (args : list string) : M error :=
modify (setBase (SetOptions args)) ;;
o <- getO ;;
if negb (cli.HasAuth (Base o)) then ret (errors_New (APIKeyError ext))
else ret None.

Definition list_RunE (cmd : FlagSet) (args : list string) : M error :=
modify (setBase (setBaseOptions (GetPaging cmd))) ;;
'(oss, meta, err) <- options_list ;;
match err with
| Some e => ret (fmt_Errorf "error retrieving object storage list : " e)
| None =>
    emit (Display (ObjectStoragesPrinter oss meta)) ;;
    ret None
end.

Definition get_Args (args : list string) : error :=
if (Z.of_nat (length args) <? 1) then errors_New "please provide an object storage ID"
else None.

Definition get_RunE (cmd : FlagSet) (args : list string) : M error :=
'(os, err) <- options_get ;;
match err with
| Some e => ret (fmt_Errorf "error getting object storage info : " e)
| None =>
    emit (Display (ObjectStoragePrinter os)) ;;
    ret None
end.

Definition create_RunE (cmd : FlagSet) (args : list string) : M error :=
let '(clusterID, errCl) := GetInt ext cmd "cluster-id" in
match errCl with
| Some e => ret (fmt_Errorf "error parsing flag 'cluster-id' for object storage create : " e)
| None =>
let '(label, errLa) := GetString ext cmd "label" in
match errLa with
| Some e => ret (fmt_Errorf "error parsing flag 'label' for object storage create : " e)
| None =>
let '(tierID, errTID) := GetInt ext cmd "tier-id" in
match errTID with
| Some e => ret (fmt_Errorf "error parsing flag 'tier-id' for object storage create : " e)
| None =>
    modify (fun o => {| Base := Base o; ClusterID := clusterID;
                        TierID := TierID o; Label := Label o |}) ;;
    modify (fun o => {| Base := Base o; ClusterID := ClusterID o;
                        TierID := TierID o; Label := label |}) ;;
    modify (fun o => {| Base := Base o; ClusterID := ClusterID o;
                        TierID := tierID; Label := Label o |}) ;;
    '(os, err) <- options_create ;;
    match err with
    | Some e => ret (fmt_Errorf "error creating object storage : " e)
    | None =>
        emit (Display (ObjectStoragePrinter os)) ;;
        ret None
    end
end end end.

Definition label_Args (args : list string) : error :=
if (Z.of_nat (length args) <? 1) then errors_New "please provide an object storage ID"
else None.

Definition label_RunE (cmd : FlagSet) (args : list string) : M error :=
let '(label, errLa) := GetString ext cmd "label" in
match errLa with
| Some e => ret (fmt_Errorf "error parsing flag 'label' for object storage label : " e)
| None =>
    modify (fun o => {| Base := Base o; ClusterID := ClusterID o;
                        TierID := TierID o; Label := label |}) ;;
    err <- options_update ;;
    match err with
    | Some e => ret (fmt_Errorf "error updating object storage label : " e)
    | None =>
        emit (Display (Info "object storage label has been set")) ;;
        ret None
    end
end.

Definition del_Args (args : list string) : error :=
if (Z.of_nat (length args) <? 1) then errors_New "please provide an object storage ID"
else None.

Definition del_RunE (cmd : FlagSet) (args : list string) : M error :=
err <- options_del ;;
match err with
| Some e => ret (fmt_Errorf "unable to delete object storage : " e)
| None =>
    emit (Display (Info "object storage has been deleted")) ;;
    ret None
end.

Definition regenerateKeys_Args (args : list string) : error :=
if (Z.of_nat (length args) <? 1) then errors_New "please provide an object storage ID"
else None.

Definition regenerateKeys_RunE (cmd : FlagSet) (args : list string) : M error :=
'(key, err) <- options_regenerateKeys ;;
match err with
| Some e => ret (fmt_Errorf "unable to regenerate keys for object storage : " e)
| None =>
    emit (Display (ObjectStorageKeysPrinter key)) ;;
    ret None
end.

Definition listClusters_RunE (cmd : FlagSet) (args : list string) : M error :=
modify (setBase (setBaseOptions (GetPaging cmd))) ;;
'(clusters, meta, err) <- options_listClusters ;;
match err with
| Some e => ret (fmt_Errorf "error retrieving object storage cluster list : " e)
| None =>
    emit (Display (ObjectStorageClustersPrinter clusters meta)) ;;
    ret None
end.

Definition listClusterTiers_Args (args : list string) : error :=
if (Z.of_nat (length args) <? 1) then errors_New "please provide a Cluster ID"
else None.

Definition listClusterTiers_RunE (cmd : FlagSet) (args : list string) : M error :=
a0 <- index0 args ;;
match strconv.Atoi a0 with
| inr err => ret (fmt_Errorf "invalid clusterID: " (strconv.Error (Quote ext) err))
| inl clusterID =>
    modify (setBase (setBaseOptions (GetPaging cmd))) ;;
    '(clusterTiers, err) <- options_listClusterTiers clusterID ;;
    match err with
    | Some e => ret (fmt_Errorf "error retrieving object storage cluster tier list: " e)
    | None =>
        emit (Display (ObjectStorageClusterTiersPrinter clusterTiers)) ;;
        ret None
    end
end.

Definition listTiers_RunE (cmd : FlagSet) (args : list string) : M error :=
modify (setBase (setBaseOptions (GetPaging cmd))) ;;
'(tiers, err) <- options_listTiers ;;
match err with
| Some e => ret (fmt_Errorf "error retrieving object storage tier list : " e)
| None =>
    emit (Display (ObjectStorageTiersPrinter tiers)) ;;
    ret None
end.

(** The flags as registered, before any is marked required. *)
Definition list_Flags : FlagSet :=
IntP "per-page" "p" (PerPageDefault ext) (StringP "cursor" "c" "" []).

Definition create_Flags : FlagSet :=
IntP "tier-id" "t" 1 (IntP "cluster-id" "i" 0 (StringP "label" "l" "" [])).

Definition label_Flags : FlagSet :=
StringP "label" "l" "" [].

(** The command tree: the hook of the parent and its nine children. *)
Record Group := {
  preRun : list string -> M error;
  child : Subcommand -> Command
}.

(** The nine [&cobra.Command{...}] values, given the flag sets of [create]
    and [label] once their required flag is marked. *)
Definition children (createFlags labelFlags : FlagSet) (s : Subcommand) : Command :=
match s with
| cmd_list => {| Args := None; RunE := list_RunE; Flags := list_Flags |}
| cmd_get => {| Args := Some get_Args; RunE := get_RunE; Flags := [] |}
| cmd_create => {| Args := None; RunE := create_RunE; Flags := createFlags |}
| cmd_label => {| Args := Some label_Args; RunE := label_RunE; Flags := labelFlags |}
| cmd_del => {| Args := Some del_Args; RunE := del_RunE; Flags := [] |}
| cmd_regenerateKeys =>
    {| Args := Some regenerateKeys_Args; RunE := regenerateKeys_RunE; Flags := [] |}
| cmd_listClusters => {| Args := None; RunE := listClusters_RunE; Flags := [] |}
| cmd_listClusterTiers =>
    {| Args := Some listClusterTiers_Args; RunE := listClusterTiers_RunE; Flags := [] |}
| cmd_listTiers => {| Args := None; RunE := listTiers_RunE; Flags := [] |}
end.

(** [NewCmdObjectStorage]: a flag that cannot be marked required prints the
    error and ends the process with status 1. *)
Definition NewCmdObjectStorage : M Group :=
match MarkFlagRequired "cluster-id" create_Flags with
| inr err =>
    emit (PrintError ("error marking object storage create 'cluster-id' flag required : " ^^ err)) ;;
    os_Exit 1
| inl createFlags =>
match MarkFlagRequired "label" label_Flags with
| inr err =>
    emit (PrintError ("error marking object storage update 'label' flag required: " ^^ err)) ;;
    os_Exit 1
| inl labelFlags =>
    ret {| preRun := PersistentPreRunE; child := children createFlags labelFlags |}
end end.

(** *** cobra's dispatcher

    The steps of cobra's [Command.execute] that touch the fields above, in
    cobra's order: the flags are parsed, the positional arguments are
    validated ([Args]; a subcommand without [Args] takes any), the nearest
    [PersistentPreRunE] is run, the required flags are checked, and [RunE]
    is run.  The first error ends the invocation and is returned. *)
Definition ValidateArgs (c : Command) (args : list string) : error :=
match Args c with
| None => None
| Some validate => validate args
end.

Definition execute (g : Group) (c : Command) (line : CommandLine) : M error :=
match ParseFlags ext (Flags c) (flagArgs line) with
| inr e => ret (Some e)
| inl flags =>
    match ValidateArgs c (posArgs line) with
    | Some e => ret (Some e)
    | None =>
        err <- preRun g (posArgs line) ;;
        match err with
        | Some e => ret (Some e)
        | None =>
            match ValidateRequiredFlags ext flags with
            | Some e => ret (Some e)
            | None => RunE c flags (posArgs line)
            end
        end
    end
end.

(** One invocation of subcommand [s]: the command tree is built, then cobra
    runs the subcommand on the command line. *)
Definition invoke (s : Subcommand) (line : CommandLine) : M error :=
g <- NewCmdObjectStorage ;;
execute g (child g s) line.

(** The outbound calls of a trace, in order. *)
Fixpoint calls (t : list Event) : list Call :=
match t with
| [] => []
| Remote c :: rest => c :: calls rest
| _ :: rest => calls rest
end.

(** What was handed to the printer, in order. *)
Fixpoint displayed (t : list Event) : list Data :=
match t with
| [] => []
| Display d :: rest => d :: displayed rest
| _ :: rest => displayed rest
end.

(** The tree that [NewCmdObjectStorage] returns when both flags can be
    marked (they can: see [NewCmdObjectStorage_returns]). *)
Definition group : Group :=
{| preRun := PersistentPreRunE;
   child := children (markRequired "cluster-id" create_Flags)
                     (markRequired "label" label_Flags) |}.

(** *** Vocabulary of the properties *)

Definition outcome_of {A} (r : outcome A * options * list Event) : outcome A := fst (fst r).

Definition trace_of {A} (r : outcome A * options * list Event) : list Event := snd r.

Definition final_of {A} (r : outcome A * options * list Event) : options := snd (fst r).

(** What a subcommand hands to the printer once call [c] has succeeded: the
    result of the call in the printer type of the subcommand, or the fixed
    message of [label] and [delete]. *)
Definition displayOf (c : Call) : Data :=
match c with
| CallList opts =>
    ObjectStoragesPrinter (fst (fst (List client opts))) (snd (fst (List client opts)))
| CallGet id => ObjectStoragePrinter (fst (Get client id))
| CallCreate req => ObjectStoragePrinter (fst (Create client req))
| CallUpdate _ _ => Info "object storage label has been set"
| CallDelete _ => Info "object storage has been deleted"
| CallListCluster opts =>
    ObjectStorageClustersPrinter (fst (fst (ListCluster client opts)))
                                 (snd (fst (ListCluster client opts)))
| CallListTiers => ObjectStorageTiersPrinter (fst (ListTiers client))
| CallListClusterTiers clusterID =>
    ObjectStorageClusterTiersPrinter (fst (ListClusterTiers client clusterID))
| CallRegenerateKeys id => ObjectStorageKeysPrinter (fst (RegenerateKeys client id))
end.

(** The flags of the command line are all accepted by the subcommand. *)
Definition flagsOK (s : Subcommand) (line : CommandLine) : bool :=
match ParseFlags ext (Flags (child group s)) (flagArgs line) with
| inl _ => true
| inr _ => false
end.

(** The subcommands that take a positional ID. *)
Definition requiresID (s : Subcommand) : bool :=
match s with
| cmd_get | cmd_label | cmd_del | cmd_regenerateKeys | cmd_listClusterTiers => true
| _ => false
end.

(** The error of such a subcommand when the ID is missing. *)
Definition missingID (s : Subcommand) : string :=
match s with
| cmd_listClusterTiers => "please provide a Cluster ID"
| _ => "please provide an object storage ID"
end.

(** The flag a subcommand marks as required. *)
Definition requiredFlag (s : Subcommand) : option string :=
match s with
| cmd_create => Some "cluster-id"
| cmd_label => Some "label"
| _ => None
end.

(** The prefix each subcommand puts before the error of its remote call. *)
Definition remotePrefix (s : Subcommand) : string :=
match s with
| cmd_list => "error retrieving object storage list : "
| cmd_get => "error getting object storage info : "
| cmd_create => "error creating object storage : "
| cmd_label => "error updating object storage label : "
| cmd_del => "unable to delete object storage : "
| cmd_regenerateKeys => "unable to regenerate keys for object storage : "
| cmd_listClusters => "error retrieving object storage cluster list : "
| cmd_listClusterTiers => "error retrieving object storage cluster tier list: "
| cmd_listTiers => "error retrieving object storage tier list : "
end.

(** The error the remote side answers to a call. *)
Definition responseError (c : Call) : error :=
match c with
| CallList opts => snd (List client opts)
| CallGet id => snd (Get client id)
| CallCreate req => snd (Create client req)
| CallUpdate id req => Update client id req
| CallDelete id => Delete client id
| CallListCluster opts => snd (ListCluster client opts)
| CallListTiers => snd (ListTiers client)
| CallListClusterTiers clusterID => snd (ListClusterTiers client clusterID)
| CallRegenerateKeys id => snd (RegenerateKeys client id)
end.

Definition isSome {A} (x : option A) : bool :=
match x with Some _ => true | None => false end.

(** Every local check of the invocation passes: the flags parse, the
    positional ID is there when one is needed, the required flag is given,
    and the cluster ID of [list-cluster-tiers] is an integer. *)
Definition locallyValid (s : Subcommand) (line : CommandLine) : bool :=
flagsOK s line
&& (negb (requiresID s) || isSome (hd_error (posArgs line)))
&& match requiredFlag s with
   | Some name => isSome (given name (flagArgs line))
   | None => true
   end
&& match s, posArgs line with
   | cmd_listClusterTiers, a :: _ =>
       match strconv.Atoi a with inl _ => true | inr _ => false end
   | _, _ => true
   end.

End ObjectStorage.

(** ** Facts about flag sets *)

Section PflagFacts.

Variable ext : Externals.

(** What parsing never changes in a flag. *)
Definition skeleton (f : Flag) : string * string * string * bool :=
(Name f, Shorthand f, typeName (Value f), Required f).

Lemma Lookup_setValue_same (fs : FlagSet) (n : string) (v : FlagValue) (f : Flag) :
  Lookup fs n = Some f ->
  Lookup (setValue n v fs) n =
  Some {| Name := Name f; Shorthand := Shorthand f; Value := v;
          Changed := true; Required := Required f |}.
Proof.
  induction fs as [|g fs IH]; simpl; [discriminate|].
  destruct (String.eqb (Name g) n) eqn:E; simpl.
  - intros [= ->]. now rewrite E.
  - rewrite E. exact IH.
Qed.

Lemma Lookup_setValue_other (fs : FlagSet) (n m : string) (v : FlagValue) :
  String.eqb m n = false ->
  Lookup (setValue m v fs) n = Lookup fs n.
Proof.
  intros D. induction fs as [|g fs IH]; simpl; [reflexivity|].
  destruct (String.eqb (Name g) m) eqn:E; simpl.
  - apply String.eqb_eq in E. rewrite E, D. reflexivity.
  - now rewrite IH.
Qed.

Lemma skeleton_setValue (fs : FlagSet) (n : string) (v : FlagValue) (f : Flag) :
  Lookup fs n = Some f ->
  typeName v = typeName (Value f) ->
  map skeleton (setValue n v fs) = map skeleton fs.
Proof.
  induction fs as [|g fs IH]; simpl; [reflexivity|].
  destruct (String.eqb (Name g) n) eqn:E; simpl.
  - intros [= ->] T. unfold skeleton at 1 3; simpl. now rewrite T.
  - intros L T. now rewrite IH.
Qed.

Lemma Set__inv (fs fs' : FlagSet) (n t : string) :
  Set_ ext fs n t = inl fs' ->
  exists f v,
    Lookup fs n = Some f /\ fs' = setValue n v fs /\
    typeName v = typeName (Value f) /\
    match v with
    | StringValue x => x = t
    | IntValue i => intFlagSet ext t = Some i
    end.
Proof.
  unfold Set_. destruct (Lookup fs n) as [f|] eqn:L; [|discriminate].
  destruct (Value f) as [x|i] eqn:V.
  - intros [= <-]. exists f, (StringValue t). rewrite V. auto.
  - destruct (intFlagSet ext t) as [j|] eqn:P; [|discriminate].
    intros [= <-]. exists f, (IntValue j). rewrite V. auto.
Qed.

Lemma ParseFlags_skeleton (fa : list (string * string)) :
  forall fs fs', ParseFlags ext fs fa = inl fs' -> map skeleton fs' = map skeleton fs.
Proof.
  induction fa as [|[n t] fa IH]; simpl; intros fs fs'.
  - now intros [= ->].
  - destruct (Set_ ext fs n t) as [fs1|e] eqn:S; [|discriminate].
    intros P. rewrite (IH _ _ P).
    destruct (Set__inv _ _ _ _ S) as (f & v & L & -> & T & _).
    eapply skeleton_setValue; eauto.
Qed.

Lemma ParseFlags_not_given (name : string) (fa : list (string * string)) :
  forall fs fs',
    given name fa = None ->
    ParseFlags ext fs fa = inl fs' ->
    Lookup fs' name = Lookup fs name.
Proof.
  induction fa as [|[n t] fa IH]; simpl; intros fs fs'.
  - now intros _ [= ->].
  - destruct (given name fa) eqn:G; [discriminate|].
    destruct (String.eqb n name) eqn:E; [discriminate|]. intros _.
    destruct (Set_ ext fs n t) as [fs1|e] eqn:S; [|discriminate].
    intros P. rewrite (IH _ _ eq_refl P).
    destruct (Set__inv _ _ _ _ S) as (f & v & L & -> & _).
    now apply Lookup_setValue_other.
Qed.

Lemma ParseFlags_given (name text : string) (fa : list (string * string)) :
  forall fs fs',
    given name fa = Some text ->
    ParseFlags ext fs fa = inl fs' ->
    exists f,
      Lookup fs' name = Some f /\ Changed f = true /\
      match Value f with
      | StringValue x => x = text
      | IntValue i => intFlagSet ext text = Some i
      end.
Proof.
  induction fa as [|[n t] fa IH]; simpl; intros fs fs'; [discriminate|].
  destruct (Set_ ext fs n t) as [fs1|e] eqn:S; [|intros _; discriminate].
  destruct (given name fa) as [x|] eqn:G.
  - intros [= ->] P. eapply IH; eauto.
  - destruct (String.eqb n name) eqn:E; [|discriminate].
    intros [= ->] P. apply String.eqb_eq in E. subst n.
    rewrite (ParseFlags_not_given _ _ _ _ G P).
    destruct (Set__inv _ _ _ _ S) as (f & v & L & -> & _ & V).
    rewrite (Lookup_setValue_same _ _ v _ L).
    eexists; repeat split; simpl. exact V.
Qed.

(** A command without flags accepts no flag at all. *)
Lemma ParseFlags_nil (fa : list (string * string)) :
  ParseFlags ext [] fa =
  match fa with
  | [] => inl []
  | (n, _) :: _ => inr (unknownFlag ext n)
  end.
Proof. destruct fa as [|[n t] fa]; reflexivity. Qed.

End PflagFacts.

(** ** Properties of the command group *)

Section Properties.

Context {ObjectStorage Meta ObjectStorageCluster ObjectStorageTier S3Keys : Type}.

Variable ext : Externals.
Variable client : @Client ObjectStorage Meta ObjectStorageCluster ObjectStorageTier S3Keys.

(** Both [MarkFlagRequired] calls succeed: the start-up never exits. *)
Lemma NewCmdObjectStorage_returns (o : options) :
  NewCmdObjectStorage ext client o = (Returned (group ext client), o, []).
Proof. reflexivity. Qed.

Lemma invoke_execute (s : Subcommand) (line : CommandLine) (o : options) :
  invoke ext client s line o = execute ext (group ext client) (child (group ext client) s) line o.
Proof.
  unfold invoke, bind. rewrite NewCmdObjectStorage_returns.
  now destruct (execute ext (group ext client) (child (group ext client) s) line o) as [[r o'] t].
Qed.

Lemma create_parse (fa : list (string * string)) (flags : FlagSet) :
  ParseFlags ext (Flags (child (group ext client) cmd_create)) fa = inl flags ->
  exists l b1 c b2 t b3,
    flags = [ {| Name := "label"; Shorthand := "l"; Value := StringValue l;
                 Changed := b1; Required := false |};
              {| Name := "cluster-id"; Shorthand := "i"; Value := IntValue c;
                 Changed := b2; Required := true |};
              {| Name := "tier-id"; Shorthand := "t"; Value := IntValue t;
                 Changed := b3; Required := false |} ] /\
    b2 = isSome (given "cluster-id" fa) /\
    (given "tier-id" fa = None -> t = 1) /\
    (forall x, given "cluster-id" fa = Some x -> intFlagSet ext x = Some c) /\
    l = match given "label" fa with Some x => x | None => "" end.
Proof.
  intros P. pose proof (ParseFlags_skeleton ext _ _ _ P) as K.
  destruct flags as [|[n1 s1 [l|?] b1 r1] [|[n2 s2 [?|c] b2 r2] [|[n3 s3 [?|t] b3 r3] [|]]]];
    try discriminate K.
  cbv in K. injection K as -> -> -> -> -> -> -> -> ->.
  exists l, b1, c, b2, t, b3. split; [reflexivity|]. repeat split.
  - destruct (given "cluster-id" fa) as [x|] eqn:G.
    + destruct (ParseFlags_given ext _ _ _ _ _ G P) as (f & L & C & _).
      cbn in L. injection L as <-. exact C.
    + pose proof (ParseFlags_not_given ext _ _ _ _ G P) as L.
      cbn in L. now injection L.
  - intros G. pose proof (ParseFlags_not_given ext _ _ _ _ G P) as L.
    cbn in L. now injection L.
  - intros x G. destruct (ParseFlags_given ext _ _ _ _ _ G P) as (f & L & _ & V).
    cbn in L. injection L as <-. exact V.
  - destruct (given "label" fa) as [x|] eqn:G.
    + destruct (ParseFlags_given ext _ _ _ _ _ G P) as (f & L & _ & V).
      cbn in L. injection L as <-. exact V.
    + pose proof (ParseFlags_not_given ext _ _ _ _ G P) as L.
      cbn in L. now injection L.
Qed.

Lemma label_parse (fa : list (string * string)) (flags : FlagSet) :
  ParseFlags ext (Flags (child (group ext client) cmd_label)) fa = inl flags ->
  exists l b,
    flags = [ {| Name := "label"; Shorthand := "l"; Value := StringValue l;
                 Changed := b; Required := true |} ] /\
    b = isSome (given "label" fa) /\
    (forall x, given "label" fa = Some x -> l = x).
Proof.
  intros P. pose proof (ParseFlags_skeleton ext _ _ _ P) as K.
  destruct flags as [|[n1 s1 [l|?] b1 r1] [|]]; try discriminate K.
  cbv in K. injection K as -> -> ->.
  exists l, b1. split; [reflexivity|].
  destruct (given "label" fa) as [x|] eqn:G.
  - destruct (ParseFlags_given ext _ _ _ _ _ G P) as (f & L & C & V).
    cbn in L. injection L as <-. split; [exact C|].
    now intros y [= <-].
  - pose proof (ParseFlags_not_given ext _ _ _ _ G P) as L.
    cbn in L. split; [now injection L | discriminate].
Qed.

Lemma list_parse (fa : list (string * string)) (flags : FlagSet) :
  ParseFlags ext (Flags (child (group ext client) cmd_list)) fa = inl flags ->
  exists cur b1 pp b2,
    flags = [ {| Name := "cursor"; Shorthand := "c"; Value := StringValue cur;
                 Changed := b1; Required := false |};
              {| Name := "per-page"; Shorthand := "p"; Value := IntValue pp;
                 Changed := b2; Required := false |} ] /\
    (forall t, given "per-page" fa = Some t -> intFlagSet ext t = Some pp) /\
    (given "per-page" fa = None -> pp = PerPageDefault ext) /\
    (forall x, given "cursor" fa = Some x -> cur = x) /\
    (given "cursor" fa = None -> cur = "").
Proof.
  intros P. pose proof (ParseFlags_skeleton ext _ _ _ P) as K.
  destruct flags as [|[n1 s1 [cur|?] b1 r1] [|[n2 s2 [?|pp] b2 r2] [|]]];
    try discriminate K.
  cbv in K. injection K as -> -> -> -> -> ->.
  exists cur, b1, pp, b2. split; [reflexivity|]. repeat split.
  - intros t G. destruct (ParseFlags_given ext _ _ _ _ _ G P) as (f & L & _ & V).
    cbn in L. injection L as <-. exact V.
  - intros G. pose proof (ParseFlags_not_given ext _ _ _ _ G P) as L.
    cbn in L. now injection L.
  - intros x G. destruct (ParseFlags_given ext _ _ _ _ _ G P) as (f & L & _ & V).
    cbn in L. injection L as <-. exact V.
  - intros G. pose proof (ParseFlags_not_given ext _ _ _ _ G P) as L.
    cbn in L. now injection L.
Qed.

Lemma length_lt_1_cons {A : Type} (a : A) (rest : list A) :
  (Z.of_nat (length (a :: rest)) <? 1) = false.
Proof. apply Z.ltb_ge. simpl length. lia. Qed.

(** The [Args] validators: only an empty argument list is refused, and only
    by the subcommands that take an ID. *)
Lemma ValidateArgs_spec (s : Subcommand) (args : list string) :
  ValidateArgs (child (group ext client) s) args =
  match args with
  | [] => if requiresID s then Some (missingID s) else None
  | _ :: _ => None
  end.
Proof.
  destruct args as [|a rest]; [now destruct s|].
  destruct s; try reflexivity; unfold ValidateArgs; simpl Args;
    unfold get_Args, label_Args, del_Args, regenerateKeys_Args, listClusterTiers_Args;
    now rewrite length_lt_1_cons.
Qed.

(** Inverts a successful parse of the flags of the subcommand at hand. *)
Ltac parse_inv P :=
  first
    [ destruct (create_parse _ _ P) as (?l & ?b1 & ?c & ?b2 & ?t & ?b3 & -> & -> & ?T1 & ?T2 & ?T3)
    | destruct (label_parse _ _ P) as (?l & ?b & -> & -> & ?T)
    | destruct (list_parse _ _ P) as (?cur & ?b1 & ?pp & ?b2 & -> & ?T1 & ?T2 & ?T3 & ?T4)
    | simpl Flags in P; rewrite ParseFlags_nil in P;
      destruct (flagArgs _) as [|[? ?] ?]; [injection P as <- | discriminate P] ].

(** Runs the body of a subcommand, splitting on whatever the run depends
    on: the answer of the remote side, the parse of the cluster ID. *)
Ltac run_body :=
  cbn;
  repeat (match goal with
          | |- context [given ?n ?fa] => destruct (given n fa) eqn:?
          | |- context [strconv.Atoi ?a] => destruct (strconv.Atoi a) as [?|?] eqn:?
          | |- context [List client ?x] => destruct (List client x) as [[? ?] [?|]] eqn:?
          | |- context [Get client ?x] => destruct (Get client x) as [? [?|]] eqn:?
          | |- context [Create client ?x] => destruct (Create client x) as [? [?|]] eqn:?
          | |- context [Update client ?x ?y] => destruct (Update client x y) as [?|] eqn:?
          | |- context [Delete client ?x] => destruct (Delete client x) as [?|] eqn:?
          | |- context [ListCluster client ?x] =>
              destruct (ListCluster client x) as [[? ?] [?|]] eqn:?
          | |- context [ListTiers client] => destruct (ListTiers client) as [? [?|]] eqn:?
          | |- context [ListClusterTiers client ?x] =>
              destruct (ListClusterTiers client x) as [? [?|]] eqn:?
          | |- context [RegenerateKeys client ?x] =>
              destruct (RegenerateKeys client x) as [? [?|]] eqn:?
          end; cbn).


(** X1: every invocation returns to cobra.  The reads of [o.Base.Args[0]]
    and of [args[0]] are never out of range, since the [Args] validators have
    refused the empty argument list before, and the start-up does not exit. *)
Lemma invoke_returns (s : Subcommand) (line : CommandLine) (o : options) :
  exists err, outcome_of (invoke ext client s line o) = Returned err.
Proof.
  rewrite invoke_execute. unfold execute. rewrite ValidateArgs_spec.
  destruct (ParseFlags ext (Flags (child (group ext client) s)) (flagArgs line))
    as [flags|e] eqn:P; [|eexists; reflexivity].
  destruct o as [[auth args opts] cid tid lbl].
  destruct (posArgs line) as [|a rest]; destruct auth; destruct s; parse_inv P.
  all: run_body; eexists; reflexivity.
Qed.

(** C2: a create invocation that omits the tier-id flag sends TierID 1.
    Every Create call of such an invocation carries TierID 1; and when the
    invocation is authenticated and gives a cluster-id that parses to [c],
    the one call made is Create with ClusterID [c], TierID 1 and the label
    given (the empty default when none is). *)
Theorem C2_create_default_tier (line : CommandLine) (o : options) :
  given "tier-id" (flagArgs line) = None ->
  (forall req,
     In (CallCreate req) (calls (trace_of (invoke ext client cmd_create line o))) ->
     govultr.TierID req = 1)
  /\
  (forall text c,
     flagsOK ext client cmd_create line = true ->
     given "cluster-id" (flagArgs line) = Some text ->
     intFlagSet ext text = Some c ->
     cli.HasAuth (Base o) = true ->
     calls (trace_of (invoke ext client cmd_create line o)) =
     [CallCreate {| govultr.ClusterID := c;
                    govultr.TierID := 1;
                    govultr.Label := match given "label" (flagArgs line) with
                                     | Some x => x
                                     | None => ""
                                     end |}]).
Proof.
  intros G. rewrite invoke_execute. unfold execute, flagsOK.
  rewrite ValidateArgs_spec.
  destruct (ParseFlags ext (Flags (child (group ext client) cmd_create)) (flagArgs line))
    as [flags|e] eqn:P.
  2:{ cbn. split; [intros req []|discriminate]. }
  destruct o as [[auth args opts] cid tid lbl].
  parse_inv P. rewrite (T1 G). clear T1. subst l.
  destruct (given "cluster-id" (flagArgs line)) as [x|] eqn:GC.
  - pose proof (T2 x eq_refl) as I.
    destruct (posArgs line) as [|a rest]; destruct auth; run_body.
    all: split;
      [ intros req H; cbn in H; repeat destruct H as [H|H]; try easy;
        now injection H as <-
      | intros text c' _ [= <-] I' A; try discriminate A;
        rewrite I in I'; now injection I' as <- ].
  - destruct (posArgs line) as [|a rest]; destruct auth; cbn.
    all: split; [intros req []|discriminate].
Qed.

(** C3: whenever the remote side answers a call of an invocation with an
    error, the invocation returns that error's text behind the fixed prefix
    of the subcommand, and nothing is handed to the printer. *)
Theorem C3_remote_error_wrapped
    (s : Subcommand) (line : CommandLine) (o : options) (c : Call) (e : string) :
  In c (calls (trace_of (invoke ext client s line o))) ->
  responseError client c = Some e ->
  outcome_of (invoke ext client s line o) = Returned (Some (remotePrefix s ^^ e)) /\
  displayed (trace_of (invoke ext client s line o)) = [].
Proof.
  rewrite invoke_execute. unfold execute. rewrite ValidateArgs_spec.
  destruct (ParseFlags ext (Flags (child (group ext client) s)) (flagArgs line))
    as [flags|e0] eqn:P; [|intros []].
  destruct o as [[auth args opts] cid tid lbl].
  destruct (posArgs line) as [|a rest]; destruct auth; destruct s; parse_inv P.
  all: run_body.
  all: intros I; cbn in I; try (now destruct I); destruct I as [<-|[]]; cbn.
  all: match goal with
       | H : _ = _ |- _ = Some _ -> _ => rewrite H; cbn
       end.
  all: intros [= <-] || discriminate.
  all: split; reflexivity.
Qed.

(** C4: the request of a label invocation carries the label and nothing
    else.  Every Update call has ClusterID and TierID at their zero value,
    whatever [o] held before; and an authenticated invocation with
    positional ID [id] and label flag [x] makes exactly the call
    Update(id, {Label: x}). *)
Theorem C4_label_request_only_label (line : CommandLine) (o : options) :
  (forall id req,
     In (CallUpdate id req) (calls (trace_of (invoke ext client cmd_label line o))) ->
     govultr.ClusterID req = 0 /\ govultr.TierID req = 0)
  /\
  (forall id rest x,
     flagsOK ext client cmd_label line = true ->
     posArgs line = id :: rest ->
     given "label" (flagArgs line) = Some x ->
     cli.HasAuth (Base o) = true ->
     calls (trace_of (invoke ext client cmd_label line o)) =
     [CallUpdate id {| govultr.ClusterID := 0; govultr.TierID := 0;
                       govultr.Label := x |}]).
Proof.
  rewrite invoke_execute. unfold execute, flagsOK. rewrite ValidateArgs_spec.
  destruct (ParseFlags ext (Flags (child (group ext client) cmd_label)) (flagArgs line))
    as [flags|e] eqn:P.
  2:{ cbn. split; [intros id req []|discriminate]. }
  destruct o as [[auth args opts] cid tid lbl].
  parse_inv P.
  destruct (given "label" (flagArgs line)) as [y|] eqn:G.
  - rewrite (T y eq_refl).
    destruct (posArgs line) as [|a rest]; destruct auth; run_body.
    all: split;
      [ intros id req H; cbn in H; repeat destruct H as [H|H]; try easy;
        now injection H as <- <-
      | intros id rest' x _ A [= <-] HA; try discriminate;
        now injection A as <- <- ].
  - destruct (posArgs line) as [|a rest]; destruct auth; cbn.
    all: split; [intros id req []|discriminate].
Qed.


(** C6: a get invocation that succeeds hands to the printer the very value
    the remote Get call returned for the first positional argument: the
    trace is that call followed by the display of its result. *)
Theorem C6_get_passthrough (line : CommandLine) (o : options) :
  outcome_of (invoke ext client cmd_get line o) = Returned None ->
  exists id rest,
    posArgs line = id :: rest /\
    trace_of (invoke ext client cmd_get line o) =
    [Remote (CallGet id); Display (ObjectStoragePrinter (fst (Get client id)))].
Proof.
  rewrite invoke_execute. unfold execute. rewrite ValidateArgs_spec.
  destruct (ParseFlags ext (Flags (child (group ext client) cmd_get)) (flagArgs line))
    as [flags|e] eqn:P; [|discriminate].
  destruct o as [[auth args opts] cid tid lbl].
  parse_inv P.
  destruct (posArgs line) as [|a rest]; destruct auth; cbn; try discriminate.
  destruct (Get client a) as [os [e|]] eqn:E; cbn; [discriminate|].
  intros _. exists a, rest. now rewrite E.
Qed.

(** C7, as the code has it: an invocation makes at most one remote call;
    none when a local check fails or when the client is not authenticated,
    and exactly one when every local check passes and the client is
    authenticated. *)
Theorem C7_at_most_one_remote_call
    (s : Subcommand) (line : CommandLine) (o : options) :
  (length (calls (trace_of (invoke ext client s line o))) <= 1)%nat /\
  (locallyValid ext client s line = false ->
   calls (trace_of (invoke ext client s line o)) = []) /\
  (cli.HasAuth (Base o) = false ->
   calls (trace_of (invoke ext client s line o)) = []) /\
  (locallyValid ext client s line = true -> cli.HasAuth (Base o) = true ->
   length (calls (trace_of (invoke ext client s line o))) = 1%nat).
Proof.
  rewrite invoke_execute. unfold execute, locallyValid, flagsOK.
  rewrite ValidateArgs_spec.
  destruct (ParseFlags ext (Flags (child (group ext client) s)) (flagArgs line))
    as [flags|e] eqn:P.
  2:{ cbn. repeat split; auto; discriminate. }
  destruct o as [[auth args opts] cid tid lbl].
  destruct (posArgs line) as [|a rest]; destruct auth; destruct s; parse_inv P.
  all: run_body.
  all: repeat split; auto; try discriminate.
  all: cbn; lia.
Qed.

(** C8, as the code has it: the page size of [list] is not bounded locally;
    500 is named in the usage text of the flag only.  Whatever integer the
    per-page flag of an authenticated list invocation parses to, above 500
    or not, the invocation makes the one call List with that page size and
    the cursor given. *)
Theorem C8_per_page_forwarded_unchecked
    (line : CommandLine) (o : options) (text : string) (n : Z) :
  flagsOK ext client cmd_list line = true ->
  given "per-page" (flagArgs line) = Some text ->
  intFlagSet ext text = Some n ->
  cli.HasAuth (Base o) = true ->
  calls (trace_of (invoke ext client cmd_list line o)) =
  [CallList (Some {| govultr.PerPage := n;
                     govultr.Cursor := match given "cursor" (flagArgs line) with
                                       | Some x => x
                                       | None => ""
                                       end |})].
Proof.
  rewrite invoke_execute. unfold execute, flagsOK.
  rewrite ValidateArgs_spec.
  destruct (ParseFlags ext (Flags (child (group ext client) cmd_list)) (flagArgs line))
    as [flags|e] eqn:P; [|discriminate].
  intros _ G I A. destruct o as [[auth args opts] cid tid lbl].
  cbn in A. subst auth. parse_inv P.
  pose proof (T1 _ G) as I'. rewrite I in I'. injection I' as <-.
  assert (cur = match given "cursor" (flagArgs line) with
                | Some x => x
                | None => ""
                end) as ->.
  { destruct (given "cursor" (flagArgs line)) as [x|]; auto. }
  destruct (posArgs line) as [|a rest]; cbn;
    destruct (List client _) as [[oss meta] [e|]]; reflexivity.
Qed.

(** C9, as the code has it: without authentication no remote call is made
    and nothing is printed, and the invocation fails; but cobra validates
    the positional arguments before it runs the hook that checks the
    authentication.  With flags that parse, a subcommand that takes an ID and
    gets none returns its missing-ID error; every other invocation returns
    the API-key error, before the required flags are checked and before the
    body of the subcommand runs. *)
Theorem C9_unauthenticated_invocation
    (s : Subcommand) (line : CommandLine) (o : options) :
  cli.HasAuth (Base o) = false ->
  trace_of (invoke ext client s line o) = [] /\
  (flagsOK ext client s line = true ->
   outcome_of (invoke ext client s line o) =
   Returned (Some match posArgs line with
                  | [] => if requiresID s then missingID s else APIKeyError ext
                  | _ :: _ => APIKeyError ext
                  end)).
Proof.
  rewrite invoke_execute. unfold execute, flagsOK. rewrite ValidateArgs_spec.
  destruct (ParseFlags ext (Flags (child (group ext client) s)) (flagArgs line))
    as [flags|e]; destruct o as [[auth args opts] cid tid lbl]; cbn; intros ->;
    [|split; [reflexivity|discriminate]].
  destruct (posArgs line) as [|a rest]; [destruct (requiresID s)|];
    split; intros; reflexivity.
Qed.


(** *** Further properties of the subcommands *)


(** X3: an invocation that returns an error hands nothing to the printer,
    whichever subcommand it is and wherever the error comes from. *)
Theorem X3_error_displays_nothing
    (s : Subcommand) (line : CommandLine) (o : options) (e : string) :
  outcome_of (invoke ext client s line o) = Returned (Some e) ->
  displayed (trace_of (invoke ext client s line o)) = [].
Proof.
  rewrite invoke_execute. unfold execute. rewrite ValidateArgs_spec.
  destruct (ParseFlags ext (Flags (child (group ext client) s)) (flagArgs line))
    as [flags|e0] eqn:P; [|reflexivity].
  destruct o as [[auth args opts] cid tid lbl].
  destruct (posArgs line) as [|a rest]; destruct auth; destruct s; parse_inv P.
  all: run_body; try reflexivity; discriminate.
Qed.

(** X4: an invocation that succeeds, of any of the nine subcommands, has made
    exactly one remote call, that call was answered without error, and the one
    thing handed to the printer afterwards is the result of that call (for
    [label] and [delete], their fixed message). *)
Theorem X4_success_displays_call_result
    (s : Subcommand) (line : CommandLine) (o : options) :
  outcome_of (invoke ext client s line o) = Returned None ->
  exists c,
    trace_of (invoke ext client s line o) = [Remote c; Display (displayOf client c)] /\
    responseError client c = None.
Proof.
  rewrite invoke_execute. unfold execute. rewrite ValidateArgs_spec.
  destruct (ParseFlags ext (Flags (child (group ext client) s)) (flagArgs line))
    as [flags|e0] eqn:P; [|discriminate].
  destruct o as [[auth args opts] cid tid lbl].
  destruct (posArgs line) as [|a rest]; destruct auth; destruct s; parse_inv P.
  all: run_body; try discriminate.
  all: intros _;
    match goal with
    | |- exists c, [Remote ?c0; _] = _ /\ _ => exists c0
    end; cbn.
  all: match goal with
       | H : _ = _ |- _ => rewrite H; cbn; split; reflexivity
       end.
Qed.

(** X5: the request fields of [o] are written by the two subcommands that
    send them and by no other.  Only [create] changes [ClusterID] and
    [TierID]; only [create] and [label] change [Label]. *)
Theorem X5_request_fields_frame
    (s : Subcommand) (line : CommandLine) (o : options) :
  (s <> cmd_create ->
   ClusterID (final_of (invoke ext client s line o)) = ClusterID o /\
   TierID (final_of (invoke ext client s line o)) = TierID o) /\
  (s <> cmd_create -> s <> cmd_label ->
   Label (final_of (invoke ext client s line o)) = Label o).
Proof.
  rewrite invoke_execute. unfold execute. rewrite ValidateArgs_spec.
  destruct (ParseFlags ext (Flags (child (group ext client) s)) (flagArgs line))
    as [flags|e0] eqn:P; [|cbn; repeat split].
  destruct o as [[auth args opts] cid tid lbl].
  destruct (posArgs line) as [|a rest]; destruct auth; destruct s; parse_inv P.
  all: run_body.
  all: split; [intros N; try (now destruct N); split; reflexivity
              |intros N1 N2; try (now destruct N1); try (now destruct N2); reflexivity].
Qed.

(** X6: an authenticated [create] sends the three flags as given: the
    cluster ID and the tier ID the texts parse to and the label (empty when
    none is given), and [o] holds the same three values afterwards. *)
Theorem X6_create_request_from_flags
    (line : CommandLine) (o : options) (textc textt : string) (c t : Z) :
  flagsOK ext client cmd_create line = true ->
  given "cluster-id" (flagArgs line) = Some textc ->
  intFlagSet ext textc = Some c ->
  given "tier-id" (flagArgs line) = Some textt ->
  intFlagSet ext textt = Some t ->
  cli.HasAuth (Base o) = true ->
  let l := match given "label" (flagArgs line) with Some x => x | None => "" end in
  calls (trace_of (invoke ext client cmd_create line o)) =
  [CallCreate {| govultr.ClusterID := c; govultr.TierID := t; govultr.Label := l |}] /\
  ClusterID (final_of (invoke ext client cmd_create line o)) = c /\
  TierID (final_of (invoke ext client cmd_create line o)) = t /\
  Label (final_of (invoke ext client cmd_create line o)) = l.
Proof.
  unfold flagsOK. rewrite invoke_execute. unfold execute. rewrite ValidateArgs_spec.
  destruct (ParseFlags ext (Flags (child (group ext client) cmd_create)) (flagArgs line))
    as [flags|e] eqn:P; [|discriminate].
  intros _ GC IC GT IT A. destruct o as [[auth args opts] cid tid lbl].
  cbn in A. subst auth.
  destruct (ParseFlags_given ext _ _ _ _ _ GT P) as (f & L & _ & V).
  parse_inv P. cbn in L. injection L as <-. cbn in V.
  rewrite IT in V. injection V as <-.
  pose proof (T2 _ GC) as I. rewrite IC in I. injection I as <-.
  rewrite GC. subst l. clear.
  destruct (posArgs line) as [|a rest]; cbn;
    destruct (Create client _) as [os [e|]]; cbn; repeat split.
Qed.

(** X7: the errors an invocation can return.  Each is the error of the flag
    parser, the missing-ID error of the subcommand, the API-key error, the
    required-flag error, the invalid-cluster-ID error of [list-cluster-tiers],
    or the error of the remote call behind the prefix of the subcommand.  The
    errors the bodies prepare for a flag that cannot be read never occur. *)
Theorem X7_returned_errors
    (s : Subcommand) (line : CommandLine) (o : options) (e : string) :
  outcome_of (invoke ext client s line o) = Returned (Some e) ->
  ParseFlags ext (Flags (child (group ext client) s)) (flagArgs line) = inr e
  \/ (requiresID s = true /\ posArgs line = [] /\ e = missingID s)
  \/ (cli.HasAuth (Base o) = false /\ e = APIKeyError ext)
  \/ (exists name,
        requiredFlag s = Some name /\ given name (flagArgs line) = None /\
        e = requiredFlagsNotSet ext [name])
  \/ (exists a rest err,
        s = cmd_listClusterTiers /\ posArgs line = a :: rest /\
        strconv.Atoi a = inr err /\
        e = "invalid clusterID: " ^^ strconv.Error (Quote ext) err)
  \/ (exists c e',
        In c (calls (trace_of (invoke ext client s line o))) /\
        responseError client c = Some e' /\ e = remotePrefix s ^^ e').
Proof.
  rewrite invoke_execute. unfold execute. rewrite ValidateArgs_spec.
  destruct (ParseFlags ext (Flags (child (group ext client) s)) (flagArgs line))
    as [flags|e0] eqn:P.
  2:{ cbn. intros [= <-]. now left. }
  destruct o as [[auth args opts] cid tid lbl].
  destruct (posArgs line) as [|a rest]; destruct auth; destruct s; parse_inv P.
  all: run_body; try discriminate; intros [= <-]; right.
  all: first
         [ solve [left; repeat split]
         | solve [right; left; repeat split]
         | solve [do 2 right; left; eexists; repeat split; eassumption]
         | solve [do 3 right; left; do 3 eexists; repeat split; eassumption]
         | do 4 right; eexists _, _; split; [left; reflexivity|]; cbn;
           match goal with
           | H : _ = _ |- _ => rewrite H; cbn; split; reflexivity
           end ].
Qed.

Lemma digit_bounds (c : ascii) (d : Z) :
  strconv.digit c = Some d -> 0 <= d <= 9.
Proof.
  unfold strconv.digit.
  destruct ((48 <=? Z.of_N (N_of_ascii c)) && (Z.of_N (N_of_ascii c) <=? 57)) eqn:E;
    [|discriminate].
  intros [= <-]. apply andb_true_iff in E. lia.
Qed.

Lemma scan_inl (s : string) :
  forall n m, 0 <= n -> strconv.scan s n = inl m ->
              strconv.allDigits s = true /\ 0 <= m.
Proof.
  induction s as [|c s IH]; cbn [strconv.scan strconv.allDigits]; intros n m N.
  - intros [= <-]. auto.
  - destruct (strconv.digit c) as [d|] eqn:D; [|discriminate].
    pose proof (digit_bounds _ _ D).
    destruct (strconv.maxUint64 / 10 + 1 <=? n); [discriminate|].
    destruct (strconv.maxUint64 <? n * 10 + d); [discriminate|].
    apply IH. lia.
Qed.

(** What [Atoi] accepts: an optional sign before one or more decimal digits,
    with a value in the range of a 64-bit [int]. *)
Lemma Atoi_inl (a : string) (n : Z) :
  strconv.Atoi a = inl n ->
  strconv.unsignedPart a <> "" /\
  strconv.allDigits (strconv.unsignedPart a) = true /\
  - 2 ^ 63 <= n <= 2 ^ 63 - 1.
Proof.
  unfold strconv.Atoi, strconv.ParseInt, strconv.unsignedPart.
  destruct a as [|c rest]; [discriminate|].
  rewrite (orb_comm (Ascii.eqb c "+")).
  set (body := if (Ascii.eqb c "-" || Ascii.eqb c "+")%bool then rest else String c rest).
  unfold strconv.ParseUint.
  destruct body as [|c' body'] eqn:B; [discriminate|].
  destruct (strconv.scan (String c' body') 0) as [un|[|]] eqn:S; try discriminate.
  destruct (scan_inl _ _ _ (Z.le_refl 0) S) as [AD U].
  destruct (Ascii.eqb c "-"); cbn [negb andb].
  - destruct (2 ^ 63 <? un) eqn:C; [discriminate|]. intros [= <-].
    apply Z.ltb_ge in C. repeat split; try easy; lia.
  - destruct (2 ^ 63 <=? un) eqn:C; [discriminate|]. intros [= <-].
    apply Z.leb_gt in C. repeat split; try easy; lia.
Qed.

(** X8: the cluster ID [list-cluster-tiers] sends is the value of its first
    positional argument read as a decimal: the argument is an optional sign
    followed by one or more decimal digits and the value fits a 64-bit [int].
    No sign, zero or range check is made beyond that. *)
Theorem X8_cluster_id_is_decimal_int64
    (line : CommandLine) (o : options) (n : Z) :
  In (CallListClusterTiers n)
     (calls (trace_of (invoke ext client cmd_listClusterTiers line o))) ->
  exists a rest,
    posArgs line = a :: rest /\
    strconv.Atoi a = inl n /\
    strconv.unsignedPart a <> "" /\
    strconv.allDigits (strconv.unsignedPart a) = true /\
    - 2 ^ 63 <= n <= 2 ^ 63 - 1.
Proof.
  rewrite invoke_execute. unfold execute. rewrite ValidateArgs_spec.
  destruct (ParseFlags ext (Flags (child (group ext client) cmd_listClusterTiers))
              (flagArgs line)) as [flags|e0] eqn:P; [|intros []].
  destruct o as [[auth args opts] cid tid lbl].
  destruct (posArgs line) as [|a rest]; destruct auth; parse_inv P.
  all: run_body; intros H; cbn in H; try (now destruct H).
  all: destruct H as [[= <-]|[]]; exists a, rest.
  all: match goal with
       | H : strconv.Atoi _ = inl _ |- _ => pose proof (Atoi_inl _ _ H) as (? & ? & ?)
       end; auto.
Qed.

(** X9: a [list] invocation that gives no per-page flag asks for
    [utils.PerPageDefault] items, with the cursor given, or the empty cursor
    when there is none. *)
Theorem X9_list_default_page_size (line : CommandLine) (o : options) :
  flagsOK ext client cmd_list line = true ->
  given "per-page" (flagArgs line) = None ->
  cli.HasAuth (Base o) = true ->
  calls (trace_of (invoke ext client cmd_list line o)) =
  [CallList (Some {| govultr.PerPage := PerPageDefault ext;
                     govultr.Cursor := match given "cursor" (flagArgs line) with
                                       | Some x => x
                                       | None => ""
                                       end |})].
Proof.
  unfold flagsOK. rewrite invoke_execute. unfold execute. rewrite ValidateArgs_spec.
  destruct (ParseFlags ext (Flags (child (group ext client) cmd_list)) (flagArgs line))
    as [flags|e] eqn:P; [|discriminate].
  intros _ G A. destruct o as [[auth args opts] cid tid lbl].
  cbn in A. subst auth. parse_inv P. rewrite (T2 G).
  assert (cur = match given "cursor" (flagArgs line) with
                | Some x => x
                | None => ""
                end) as ->.
  { destruct (given "cursor" (flagArgs line)) as [x|]; auto. }
  destruct (posArgs line) as [|a rest]; cbn;
    destruct (List client _) as [[oss meta] [e|]]; reflexivity.
Qed.

(** X10: each subcommand calls its own method of the client and no other:
    a call found in the trace of subcommand [s] is the call of [s]. *)
Theorem X10_call_is_of_the_subcommand
    (s : Subcommand) (line : CommandLine) (o : options) (c : Call) :
  In c (calls (trace_of (invoke ext client s line o))) ->
  operationOf c = s.
Proof.
  rewrite invoke_execute. unfold execute. rewrite ValidateArgs_spec.
  destruct (ParseFlags ext (Flags (child (group ext client) s)) (flagArgs line))
    as [flags|e0] eqn:P; [|intros []].
  destruct o as [[auth args opts] cid tid lbl].
  destruct (posArgs line) as [|a rest]; destruct auth; destruct s; parse_inv P.
  all: run_body; intros H; cbn in H; try (now destruct H).
  all: now destruct H as [<-|[]].
Qed.

Lemma scan_short (s : string) :
  forall n k,
    strconv.allDigits s = true ->
    0 <= k -> 0 <= n < 10 ^ k ->
    k + Z.of_nat (String.length s) <= 18 ->
    exists m, strconv.scan s n = inl m /\ 0 <= m < 10 ^ (k + Z.of_nat (String.length s)).
Proof.
  induction s as [|c s IH]; cbn [strconv.scan strconv.allDigits String.length];
    intros n k AD K N L.
  - exists n. rewrite Z.add_0_r. auto.
  - destruct (strconv.digit c) as [d|] eqn:D; [|discriminate].
    pose proof (digit_bounds _ _ D) as B.
    rewrite Nat2Z.inj_succ in *.
    assert (10 ^ k <= 10 ^ 17) as P17 by (apply Z.pow_le_mono_r; lia).
    assert (10 ^ (k + 1) = 10 * 10 ^ k) as PS
      by (rewrite Z.pow_add_r by lia; rewrite Z.pow_1_r; lia).
    assert (10 ^ 17 = 100000000000000000) as E17 by reflexivity.
    assert (strconv.maxUint64 / 10 + 1 = 1844674407370955162) as EC by reflexivity.
    assert (strconv.maxUint64 = 18446744073709551615) as EM by reflexivity.
    rewrite EC, EM.
    destruct (1844674407370955162 <=? n) eqn:C1; [apply Z.leb_le in C1; lia|].
    destruct (18446744073709551615 <? n * 10 + d) eqn:C2; [apply Z.ltb_lt in C2; lia|].
    destruct (IH (n * 10 + d) (k + 1) AD) as (m & S & M); try lia.
    exists m. split; [exact S|].
    replace (k + Z.succ (Z.of_nat (String.length s)))
      with (k + 1 + Z.of_nat (String.length s)) by lia.
    exact M.
Qed.

(** X11: [list-cluster-tiers] accepts every first argument made of one to
    eighteen decimal digits after an optional sign: on an authenticated client
    it makes the one call ListClusterTiers with the value of that text. *)
Theorem X11_short_decimal_id_accepted
    (line : CommandLine) (o : options) (a : string) (rest : list string) :
  flagsOK ext client cmd_listClusterTiers line = true ->
  posArgs line = a :: rest ->
  cli.HasAuth (Base o) = true ->
  strconv.unsignedPart a <> "" ->
  strconv.allDigits (strconv.unsignedPart a) = true ->
  (String.length (strconv.unsignedPart a) <= 18)%nat ->
  exists n,
    strconv.Atoi a = inl n /\ - 10 ^ 18 < n < 10 ^ 18 /\
    calls (trace_of (invoke ext client cmd_listClusterTiers line o)) =
    [CallListClusterTiers n].
Proof.
  intros OK A HA NE AD LEN.
  assert (exists n, strconv.Atoi a = inl n /\ - 10 ^ 18 < n < 10 ^ 18) as (n & E & R).
  { unfold strconv.Atoi, strconv.ParseInt. unfold strconv.unsignedPart in *.
    destruct a as [|c body0]; [now destruct NE|].
    rewrite (orb_comm (Ascii.eqb c "+")).
    rewrite (orb_comm (Ascii.eqb c "+")) in NE, AD, LEN.
    set (body := if (Ascii.eqb c "-" || Ascii.eqb c "+")%bool then body0
                 else String c body0) in *.
    unfold strconv.ParseUint.
    destruct body as [|c' body'] eqn:B; [now destruct NE|].
    destruct (scan_short (String c' body') 0 0 AD (Z.le_refl 0)) as (un & S & U);
      [now cbv | lia |].
    rewrite S.
    assert (10 ^ (0 + Z.of_nat (String.length (String c' body'))) <= 10 ^ 18) as P18
      by (apply Z.pow_le_mono_r; lia).
    assert (10 ^ 18 = 1000000000000000000) as E18 by reflexivity.
    assert (2 ^ 63 = 9223372036854775808) as E63 by reflexivity.
    rewrite E63, E18 in *.
    destruct (Ascii.eqb c "-"); cbn [negb andb].
    - destruct (9223372036854775808 <? un) eqn:C; [apply Z.ltb_lt in C; lia|].
      eexists; split; [reflexivity|lia].
    - destruct (9223372036854775808 <=? un) eqn:C; [apply Z.leb_le in C; lia|].
      eexists; split; [reflexivity|lia]. }
  exists n. split; [exact E|]. split; [exact R|].
  revert OK. unfold flagsOK. rewrite invoke_execute. unfold execute.
  rewrite ValidateArgs_spec, A.
  destruct (ParseFlags ext (Flags (child (group ext client) cmd_listClusterTiers))
              (flagArgs line)) as [flags|e0] eqn:P; [|discriminate].
  intros _. destruct o as [[auth args opts] cid tid lbl]. cbn in HA. subst auth.
  parse_inv P. cbn. rewrite E. cbn.
  destruct (ListClusterTiers client n) as [tiers [e|]]; reflexivity.
Qed.

End Properties.

(** ** The properties on concrete invocations *)

(** An instance of the outside parameters, to run the commands on concrete
    command lines.  Its int conversion reads decimal texts, on which it agrees
    with pflag; the texts stand for those of the libraries. *)
Definition sample_ext : Externals :=
{| APIKeyError := "please export your VULTR API key";
   PerPageDefault := 100;
   Quote := fun s => "'" ^^ s ^^ "'";
   intFlagSet := fun s =>
     match strconv.Atoi s with
     | inl n => Some n
     | inr _ => None
     end;
   unknownFlag := fun name => "unknown flag: --" ^^ name;
   invalidArgument := fun name text => "invalid argument " ^^ text ^^ " for --" ^^ name;
   flagNotDefined := fun name => "flag accessed but not defined: " ^^ name;
   flagWrongType := fun want have =>
     "trying to get " ^^ want ^^ " value of flag of type " ^^ have;
   requiredFlagsNotSet := fun names =>
     "required flag(s) " ^^ String.concat ", " names ^^ " not set" |}.

(** A remote side whose results are texts: it knows every object but
    ["missing"] and refuses to delete. *)
Definition sample_client : @Client string string string string string :=
{| List := fun _ => (["os-1"; "os-2"], "meta", None);
   Get := fun id =>
     ("os:" ^^ id, if String.eqb id "missing" then Some "not found" else None);
   Create := fun req => ("created:" ^^ govultr.Label req, None);
   Update := fun _ _ => None;
   Delete := fun _ => Some "forbidden";
   ListCluster := fun _ => (["cluster-1"], "meta", None);
   ListTiers := (["tier-1"], None);
   ListClusterTiers := fun _ => (["tier-1"], None);
   RegenerateKeys := fun _ => ("keys", None) |}.

Definition session (auth : bool) : options :=
{| Base := {| cli.HasAuth := auth; cli.Args := []; cli.Options := None |};
   ClusterID := 7; TierID := 9; Label := "old" |}.

Definition commandLine (flags : list (string * string)) (args : list string) : CommandLine :=
{| flagArgs := flags; posArgs := args |}.



Lemma C2_create_default_tier_witness :
  calls (trace_of (invoke sample_ext sample_client cmd_create
                     (commandLine [("cluster-id", "5"); ("label", "mybucket")] [])
                     (session true))) =
  [CallCreate {| govultr.ClusterID := 5; govultr.TierID := 1;
                 govultr.Label := "mybucket" |}].
Proof.
  apply (proj2 (C2_create_default_tier sample_ext sample_client
                  (commandLine [("cluster-id", "5"); ("label", "mybucket")] [])
                  (session true) eq_refl) "5" 5); reflexivity.
Defined.

Lemma C3_remote_error_wrapped_witness :
  outcome_of (invoke sample_ext sample_client cmd_del (commandLine [] ["os-1"]) (session true)) =
  Returned (Some "unable to delete object storage : forbidden") /\
  displayed (trace_of (invoke sample_ext sample_client cmd_del
                         (commandLine [] ["os-1"]) (session true))) = [].
Proof.
  apply (C3_remote_error_wrapped sample_ext sample_client cmd_del
           (commandLine [] ["os-1"]) (session true) (CallDelete "os-1") "forbidden").
  - simpl. left. reflexivity.
  - reflexivity.
Defined.

Lemma C4_label_request_only_label_witness :
  calls (trace_of (invoke sample_ext sample_client cmd_label
                     (commandLine [("label", "x")] ["os-1"]) (session true))) =
  [CallUpdate "os-1" {| govultr.ClusterID := 0; govultr.TierID := 0;
                        govultr.Label := "x" |}].
Proof.
  apply (proj2 (C4_label_request_only_label sample_ext sample_client
                  (commandLine [("label", "x")] ["os-1"]) (session true))
           "os-1" [] "x"); reflexivity.
Defined.



Lemma C6_get_passthrough_witness :
  exists id rest,
    posArgs (commandLine [] ["os-1"]) = id :: rest /\
    trace_of (invoke sample_ext sample_client cmd_get (commandLine [] ["os-1"]) (session true)) =
    [Remote (CallGet id); Display (ObjectStoragePrinter (fst (Get sample_client id)))].
Proof.
  apply (C6_get_passthrough sample_ext sample_client (commandLine [] ["os-1"]) (session true)).
  reflexivity.
Defined.

(** C7 fails on the code: list without authentication passes every local
    check and makes no remote call. *)
Lemma C7_valid_unauthenticated_list_makes_no_call :
  locallyValid sample_ext sample_client cmd_list (commandLine [] []) = true /\
  cli.HasAuth (Base (session false)) = false /\
  invoke sample_ext sample_client cmd_list (commandLine [] []) (session false) =
  (Returned (Some (APIKeyError sample_ext)), session false, []) /\
  length (calls (trace_of (invoke sample_ext sample_client cmd_list
                             (commandLine [] []) (session false)))) <> 1%nat.
Proof. repeat split. discriminate. Qed.

Lemma C7_at_most_one_remote_call_witness :
  calls (trace_of (invoke sample_ext sample_client cmd_create
                     (commandLine [("cluster-id", "five")] []) (session true))) = [] /\
  calls (trace_of (invoke sample_ext sample_client cmd_list
                     (commandLine [] []) (session false))) = [] /\
  length (calls (trace_of (invoke sample_ext sample_client cmd_regenerateKeys
                             (commandLine [] ["os-1"]) (session true)))) = 1%nat.
Proof.
  split; [|split].
  - apply (proj1 (proj2 (C7_at_most_one_remote_call sample_ext sample_client cmd_create
                           (commandLine [("cluster-id", "five")] []) (session true)))).
    reflexivity.
  - apply (proj1 (proj2 (proj2 (C7_at_most_one_remote_call sample_ext sample_client cmd_list
                                  (commandLine [] []) (session false))))).
    reflexivity.
  - apply (proj2 (proj2 (proj2 (C7_at_most_one_remote_call sample_ext sample_client
                                  cmd_regenerateKeys (commandLine [] ["os-1"])
                                  (session true))))); reflexivity.
Defined.

(** C8 fails on the code: list with per-page 501 is accepted, and 501 is the
    page size of the List call it makes. *)
Lemma C8_per_page_above_500_accepted :
  given "per-page" [("per-page", "501")] = Some "501" /\
  intFlagSet sample_ext "501" = Some 501 /\
  500 < 501 /\
  invoke sample_ext sample_client cmd_list (commandLine [("per-page", "501")] []) (session true) =
  (Returned None,
   {| Base := {| cli.HasAuth := true; cli.Args := [];
                 cli.Options := Some {| govultr.PerPage := 501; govultr.Cursor := "" |} |};
      ClusterID := 7; TierID := 9; Label := "old" |},
   [Remote (CallList (Some {| govultr.PerPage := 501; govultr.Cursor := "" |}));
    Display (ObjectStoragesPrinter ["os-1"; "os-2"] "meta")]).
Proof. repeat split. Qed.

Lemma C8_per_page_forwarded_unchecked_witness :
  calls (trace_of (invoke sample_ext sample_client cmd_list
                     (commandLine [("per-page", "501"); ("cursor", "next")] [])
                     (session true))) =
  [CallList (Some {| govultr.PerPage := 501; govultr.Cursor := "next" |})].
Proof.
  apply (C8_per_page_forwarded_unchecked sample_ext sample_client
           (commandLine [("per-page", "501"); ("cursor", "next")] [])
           (session true) "501" 501); reflexivity.
Defined.

(** C9 fails on the code: get without its ID and without authentication
    returns the error of the argument validator, not the API-key error. *)
Lemma C9_missing_id_reported_before_api_key :
  cli.HasAuth (Base (session false)) = false /\
  invoke sample_ext sample_client cmd_get (commandLine [] []) (session false) =
  (Returned (Some "please provide an object storage ID"), session false, []) /\
  Some "please provide an object storage ID" <> Some (APIKeyError sample_ext).
Proof. repeat split. discriminate. Qed.

Lemma C9_unauthenticated_invocation_witness :
  (trace_of (invoke sample_ext sample_client cmd_create
               (commandLine [("label", "x")] ["extra"]) (session false)) = [] /\
   outcome_of (invoke sample_ext sample_client cmd_create
                 (commandLine [("label", "x")] ["extra"]) (session false)) =
   Returned (Some (APIKeyError sample_ext)))
  /\
  outcome_of (invoke sample_ext sample_client cmd_del (commandLine [] []) (session false)) =
  Returned (Some "please provide an object storage ID").
Proof.
  split.
  - destruct (C9_unauthenticated_invocation sample_ext sample_client cmd_create
                (commandLine [("label", "x")] ["extra"]) (session false) eq_refl) as [T R].
    split; [exact T | exact (R eq_refl)].
  - exact (proj2 (C9_unauthenticated_invocation sample_ext sample_client cmd_del
                    (commandLine [] []) (session false) eq_refl) eq_refl).
Defined.


(** A state whose fields all hold values: a base with [Args] and [Options]
    set, and the three request fields. *)
Definition used_session : options :=
{| Base := {| cli.HasAuth := true; cli.Args := ["stale"];
              cli.Options := Some {| govultr.PerPage := 3; govultr.Cursor := "old" |} |};
   ClusterID := 2; TierID := 4; Label := "earlier" |}.


Lemma X3_error_displays_nothing_witness :
  displayed (trace_of (invoke sample_ext sample_client cmd_get
                         (commandLine [] ["missing"]) (session true))) = [].
Proof.
  apply (X3_error_displays_nothing sample_ext sample_client cmd_get
           (commandLine [] ["missing"]) (session true)
           "error getting object storage info : not found").
  reflexivity.
Defined.

Lemma X4_success_displays_call_result_witness :
  exists c,
    trace_of (invoke sample_ext sample_client cmd_regenerateKeys
                (commandLine [] ["os-1"]) (session true)) =
    [Remote c; Display (displayOf sample_client c)] /\
    responseError sample_client c = None.
Proof.
  apply (X4_success_displays_call_result sample_ext sample_client cmd_regenerateKeys
           (commandLine [] ["os-1"]) (session true)).
  reflexivity.
Defined.

Lemma X5_request_fields_frame_witness :
  (ClusterID (final_of (invoke sample_ext sample_client cmd_label
                          (commandLine [("label", "x")] ["os-1"]) used_session)) = 2 /\
   TierID (final_of (invoke sample_ext sample_client cmd_label
                       (commandLine [("label", "x")] ["os-1"]) used_session)) = 4) /\
  Label (final_of (invoke sample_ext sample_client cmd_list
                     (commandLine [] []) used_session)) = "earlier".
Proof.
  split.
  - apply (proj1 (X5_request_fields_frame sample_ext sample_client cmd_label
                    (commandLine [("label", "x")] ["os-1"]) used_session)).
    discriminate.
  - apply (proj2 (X5_request_fields_frame sample_ext sample_client cmd_list
                    (commandLine [] []) used_session)); discriminate.
Defined.

Lemma X6_create_request_from_flags_witness :
  calls (trace_of (invoke sample_ext sample_client cmd_create
                     (commandLine [("tier-id", "3"); ("cluster-id", "5")] [])
                     (session true))) =
  [CallCreate {| govultr.ClusterID := 5; govultr.TierID := 3; govultr.Label := "" |}] /\
  ClusterID (final_of (invoke sample_ext sample_client cmd_create
                         (commandLine [("tier-id", "3"); ("cluster-id", "5")] [])
                         (session true))) = 5 /\
  TierID (final_of (invoke sample_ext sample_client cmd_create
                      (commandLine [("tier-id", "3"); ("cluster-id", "5")] [])
                      (session true))) = 3 /\
  Label (final_of (invoke sample_ext sample_client cmd_create
                     (commandLine [("tier-id", "3"); ("cluster-id", "5")] [])
                     (session true))) = "".
Proof.
  apply (X6_create_request_from_flags sample_ext sample_client
           (commandLine [("tier-id", "3"); ("cluster-id", "5")] []) (session true)
           "5" "3" 5 3); reflexivity.
Defined.

Lemma X7_returned_errors_witness :
  ParseFlags sample_ext (Flags (child (group sample_ext sample_client) cmd_del)) [] =
  inr "unable to delete object storage : forbidden"
  \/ (requiresID cmd_del = true /\ ["os-1"] = [] /\
      "unable to delete object storage : forbidden" = missingID cmd_del)
  \/ (cli.HasAuth (Base (session true)) = false /\
      "unable to delete object storage : forbidden" = APIKeyError sample_ext)
  \/ (exists name,
        requiredFlag cmd_del = Some name /\ given name [] = None /\
        "unable to delete object storage : forbidden" =
        requiredFlagsNotSet sample_ext [name])
  \/ (exists a rest err,
        cmd_del = cmd_listClusterTiers /\ ["os-1"] = a :: rest /\
        strconv.Atoi a = inr err /\
        "unable to delete object storage : forbidden" =
        "invalid clusterID: " ^^ strconv.Error (Quote sample_ext) err)
  \/ (exists c e',
        In c (calls (trace_of (invoke sample_ext sample_client cmd_del
                                 (commandLine [] ["os-1"]) (session true)))) /\
        responseError sample_client c = Some e' /\
        "unable to delete object storage : forbidden" = remotePrefix cmd_del ^^ e').
Proof.
  apply (X7_returned_errors sample_ext sample_client cmd_del
           (commandLine [] ["os-1"]) (session true)
           "unable to delete object storage : forbidden").
  reflexivity.
Defined.

Lemma X8_cluster_id_is_decimal_int64_witness :
  exists a rest,
    posArgs (commandLine [] ["-7"]) = a :: rest /\
    strconv.Atoi a = inl (-7) /\
    strconv.unsignedPart a <> "" /\
    strconv.allDigits (strconv.unsignedPart a) = true /\
    - 2 ^ 63 <= -7 <= 2 ^ 63 - 1.
Proof.
  apply (X8_cluster_id_is_decimal_int64 sample_ext sample_client
           (commandLine [] ["-7"]) (session true) (-7)).
  simpl. left. reflexivity.
Defined.

Lemma X9_list_default_page_size_witness :
  calls (trace_of (invoke sample_ext sample_client cmd_list
                     (commandLine [("cursor", "next")] []) (session true))) =
  [CallList (Some {| govultr.PerPage := 100; govultr.Cursor := "next" |})].
Proof.
  apply (X9_list_default_page_size sample_ext sample_client
           (commandLine [("cursor", "next")] []) (session true)); reflexivity.
Defined.

Lemma X10_call_is_of_the_subcommand_witness :
  operationOf (CallUpdate "os-1" {| govultr.ClusterID := 0; govultr.TierID := 0;
                                    govultr.Label := "x" |}) = cmd_label.
Proof.
  apply (X10_call_is_of_the_subcommand sample_ext sample_client cmd_label
           (commandLine [("label", "x")] ["os-1"]) (session true)).
  simpl. left. reflexivity.
Defined.

Lemma X11_short_decimal_id_accepted_witness :
  exists n,
    strconv.Atoi "+0042" = inl n /\ - 10 ^ 18 < n < 10 ^ 18 /\
    calls (trace_of (invoke sample_ext sample_client cmd_listClusterTiers
                       (commandLine [] ["+0042"]) (session true))) =
    [CallListClusterTiers n].
Proof.
  apply (X11_short_decimal_id_accepted sample_ext sample_client
           (commandLine [] ["+0042"]) (session true) "+0042" []);
    try reflexivity; [discriminate | simpl; lia].
Defined.
